(** * ApplianceCare AI Assistant: the search page and the query pipeline

    The development has three parts.

    - [JS]: the fragment of JavaScript values the page manipulates
      (strings as sequences of UTF-16 code units, [String.prototype.trim],
      truthiness, property access, optional chaining, [||]).
    - [Page]: [frontend/app/page.jsx]: the component state, the asynchronous
      submit handler [handleSearch] as a program over the effects it
      performs (state setters and the one [axios.post]), and the render
      function of [Home].
    - [Orchestrator]: the query-to-answer pipeline of the backend. *)

From Stdlib Require Import List Bool NArith ZArith QArith String Ascii Lia.
Import ListNotations.

Set Implicit Arguments.

(* ===================================================================== *)
(** ** JavaScript values *)
(* ===================================================================== *)

Module JS.

(** A JavaScript string is a sequence of UTF-16 code units. *)
Definition jsstring : Type := list N.

Definition code_unit (c : ascii) : N := N_of_ascii c.

(** Code units of an ASCII literal of the source. *)
Definition lit (s : string) : jsstring := map code_unit (list_ascii_of_string s).

Definition jsstring_eqb (a b : jsstring) : bool :=
  if list_eq_dec N.eq_dec a b then true else false.

(** ECMAScript [WhiteSpace] and [LineTerminator] code points, the ones
    [String.prototype.trim] strips; all of them are single code units. *)
Definition is_whitespace (c : N) : bool :=
  (   (c =? 0x09) || (c =? 0x0A) || (c =? 0x0B) || (c =? 0x0C) || (c =? 0x0D)
   || (c =? 0x20) || (c =? 0xA0) || (c =? 0x1680)
   || ((0x2000 <=? c) && (c <=? 0x200A))
   || (c =? 0x2028) || (c =? 0x2029) || (c =? 0x202F) || (c =? 0x205F)
   || (c =? 0x3000) || (c =? 0xFEFF))%N.

Fixpoint trimStart (s : jsstring) : jsstring :=
  match s with
  | [] => []
  | c :: s' => if is_whitespace c then trimStart s' else s
  end.

Definition trimEnd (s : jsstring) : jsstring := rev (trimStart (rev s)).

(** [s.trim()] *)
Definition trim (s : jsstring) : jsstring := trimEnd (trimStart s).

(** Values that reach the page: parsed JSON (so numbers are finite, and
    taken here as rationals), [undefined] for absent properties, and the
    [null]s of [useState(null)]. *)
#[warnings="-register-all"]
Inductive JsVal : Type :=
| JUndefined
| JNull
| JBool (b : bool)
| JNum (q : Q)
| JStr (s : jsstring)
| JArr (items : list JsVal)
| JObj (fields : list (jsstring * JsVal)).

(** [ToBoolean] *)
Definition truthy (v : JsVal) : bool :=
  match v with
  | JUndefined | JNull => false
  | JBool b => b
  | JNum q => negb (Qeq_bool q 0)
  | JStr s => match s with [] => false | _ => true end
  | JArr _ | JObj _ => true
  end.

Definition nullish (v : JsVal) : bool :=
  match v with
  | JUndefined | JNull => true
  | _ => false
  end.

(** [v !== null] *)
Definition strict_neq_null (v : JsVal) : bool :=
  match v with
  | JNull => false
  | _ => true
  end.

Fixpoint lookup (k : jsstring) (fields : list (jsstring * JsVal)) : JsVal :=
  match fields with
  | [] => JUndefined
  | (k', v) :: rest => if jsstring_eqb k k' then v else lookup k rest
  end.

(** [v.k] for the keys the page reads ([data], [answer], [total_score],
    [detail]), none of which lives on a built-in prototype: reading a
    property of [undefined] or [null] throws a [TypeError] ([None]), an
    object yields its field or [undefined], any other value [undefined]. *)
Definition get_prop (v : JsVal) (k : jsstring) : option JsVal :=
  match v with
  | JUndefined | JNull => None
  | JObj fields => Some (lookup k fields)
  | _ => Some JUndefined
  end.

(** [v?.k] *)
Definition opt_chain (v : JsVal) (k : jsstring) : JsVal :=
  match get_prop v k with
  | Some x => x
  | None => JUndefined
  end.

(** [a || b] *)
Definition js_or (a b : JsVal) : JsVal := if truthy a then a else b.

End JS.

(* ===================================================================== *)
(** ** The search page: [frontend/app/page.jsx] *)
(* ===================================================================== *)

Module Page.
Import JS.

(** The five [useState] cells of [Home]. *)
Record State : Type := {
  query : jsstring;
  answer : JsVal;
  totalScore : JsVal;
  loading : bool;
  error : JsVal
}.

Definition initial : State :=
  {| query := []; answer := JNull; totalScore := JNull;
     loading := false; error := JNull |}.

(** A thrown value, as far as the [catch] clause looks at it:
    [axios.isAxiosError(err)] and [err.response]. *)
Record JsError : Type := {
  isAxiosError : bool;
  response : JsVal
}.

(** Reading a property of [undefined] or [null]. *)
Definition TypeError : JsError :=
  {| isAxiosError := false; response := JUndefined |}.

(** How the promise of [axios.post] settles. *)
Inductive Outcome : Type :=
| Fulfilled (resp : JsVal)
| Rejected (err : JsError).

(** The effects of the handler. *)
Inductive Action : Type -> Type :=
| PreventDefault : Action unit
| SetLoading (b : bool) : Action unit
| SetError (v : JsVal) : Action unit
| SetAnswer (v : JsVal) : Action unit
| SetTotalScore (v : JsVal) : Action unit
| AxiosPost (url : jsstring) (body : JsVal) : Action Outcome.

(** Programs over these effects; an [await] is the continuation of
    [AxiosPost]. *)
Inductive Prog (A : Type) : Type :=
| Ret (a : A)
| Vis (X : Type) (e : Action X) (k : X -> Prog A).

Arguments Ret {A} a.
Arguments Vis {A X} e k.

Fixpoint bind {A B : Type} (p : Prog A) (f : A -> Prog B) : Prog B :=
  match p with
  | Ret a => f a
  | Vis e k => Vis e (fun x => bind (k x) f)
  end.

Definition trigger {X : Type} (e : Action X) : Prog X := Vis e (fun x => Ret x).

Notation "x <- c ;; k" := (bind c (fun x => k))
  (at level 61, c at next level, right associativity).
Notation "c ;;; k" := (bind c (fun _ => k))
  (at level 61, right associativity).

(** A block that may throw returns [inl err]. *)
Definition throw {A : Type} (err : JsError) : Prog (JsError + A) := Ret (inl err).

(** [try { body } catch (err) { handler } finally { fin }], for a handler
    and a [finally] clause that do not throw. *)
Definition try_catch_finally {A : Type}
    (body : Prog (JsError + A)) (handler : JsError -> Prog A)
    (fin : Prog unit) : Prog A :=
  r <- body ;;
  a <- match r with
       | inl err => handler err
       | inr a => Ret a
       end ;;
  fin ;;;
  Ret a.

Definition endpoint : jsstring := lit "http://localhost:8000/query".

(** [{ query: query.trim() }] *)
Definition request_body (q : jsstring) : JsVal :=
  JObj [(lit "query", JStr (trim q))].

(** [response.data.k] *)
Definition response_data_field (resp : JsVal) (k : jsstring) : option JsVal :=
  match get_prop resp (lit "data") with
  | Some d => get_prop d k
  | None => None
  end.

Definition try_block (q : jsstring) : Prog (JsError + unit) :=
  o <- trigger (AxiosPost endpoint (request_body q)) ;;
  match o with
  | Rejected err => throw err
  | Fulfilled resp =>
      match response_data_field resp (lit "answer") with
      | None => throw TypeError
      | Some a =>
          trigger (SetAnswer a) ;;;
          match response_data_field resp (lit "total_score") with
          | None => throw TypeError
          | Some t => trigger (SetTotalScore t) ;;; Ret (inr tt)
          end
      end
  end.

Definition generic_search_error : jsstring := lit "An error occurred while searching".
Definition unexpected_error : jsstring := lit "An unexpected error occurred".

(** [err.response?.data?.detail || 'An error occurred while searching'] *)
Definition error_message (err : JsError) : JsVal :=
  js_or (opt_chain (opt_chain (response err) (lit "data")) (lit "detail"))
        (JStr generic_search_error).

Definition catch_block (err : JsError) : Prog unit :=
  if isAxiosError err
  then trigger (SetError (error_message err))
  else trigger (SetError (JStr unexpected_error)).

(** [handleSearch], closed over the [query] of the render it belongs to. *)
Definition handleSearch (q : jsstring) : Prog unit :=
  trigger PreventDefault ;;;
  if negb (truthy (JStr (trim q))) then Ret tt
  else
    trigger (SetLoading true) ;;;
    trigger (SetError JNull) ;;;
    trigger (SetAnswer JNull) ;;;
    trigger (SetTotalScore JNull) ;;;
    try_catch_finally (try_block q) catch_block (trigger (SetLoading false)).

(** *** Running a handler *)

Inductive Event : Type :=
| EPreventDefault
| ESetLoading (b : bool)
| ESetError (v : JsVal)
| ESetAnswer (v : JsVal)
| ESetTotalScore (v : JsVal)
| EPost (url : jsstring) (body : JsVal).

Definition is_post (ev : Event) : bool :=
  match ev with
  | EPost _ _ => true
  | _ => false
  end.

(** The backend and the network, seen from the page. *)
Definition Network : Type := jsstring -> JsVal -> Outcome.

(** The setters of the [useState] cells. *)
Definition setLoading (b : bool) (st : State) : State :=
  {| query := query st; answer := answer st; totalScore := totalScore st;
     loading := b; error := error st |}.

Definition setError (v : JsVal) (st : State) : State :=
  {| query := query st; answer := answer st; totalScore := totalScore st;
     loading := loading st; error := v |}.

Definition setAnswer (v : JsVal) (st : State) : State :=
  {| query := query st; answer := v; totalScore := totalScore st;
     loading := loading st; error := error st |}.

Definition setTotalScore (v : JsVal) (st : State) : State :=
  {| query := query st; answer := answer st; totalScore := v;
     loading := loading st; error := error st |}.

Definition setQuery (v : jsstring) (st : State) : State :=
  {| query := v; answer := answer st; totalScore := totalScore st;
     loading := loading st; error := error st |}.

(** One effect: the event observed, the state after it, and its result. *)
Definition perform (net : Network) {X : Type} (e : Action X) (st : State)
    : Event * State * X :=
  match e in Action X return Event * State * X with
  | PreventDefault => (EPreventDefault, st, tt)
  | SetLoading b => (ESetLoading b, setLoading b st, tt)
  | SetError v => (ESetError v, setError v st, tt)
  | SetAnswer v => (ESetAnswer v, setAnswer v st, tt)
  | SetTotalScore v => (ESetTotalScore v, setTotalScore v st, tt)
  | AxiosPost url body => (EPost url body, st, net url body)
  end.

Fixpoint run (net : Network) {A : Type} (p : Prog A) (st : State)
    : list Event * State * A :=
  match p with
  | Ret a => ([], st, a)
  | Vis e k =>
      let '(ev, st1, x) := perform net e st in
      let '(tr, st2, a) := run net (k x) st1 in
      (ev :: tr, st2, a)
  end.

(** Submitting the form in state [st]. *)
Definition submit (net : Network) (st : State) : list Event * State :=
  fst (run net (handleSearch (query st)) st).

Definition trace_of (net : Network) (st : State) : list Event := fst (submit net st).
Definition state_after (net : Network) (st : State) : State := snd (submit net st).

(** [onChange={(e) => setQuery(e.target.value)}] *)
Definition onChange (v : jsstring) (st : State) : State := setQuery v st.

(** Replaying a trace on a state. *)
Definition apply_event (ev : Event) (st : State) : State :=
  match ev with
  | EPreventDefault | EPost _ _ => st
  | ESetLoading b => setLoading b st
  | ESetError v => setError v st
  | ESetAnswer v => setAnswer v st
  | ESetTotalScore v => setTotalScore v st
  end.

Definition replay (tr : list Event) (st : State) : State :=
  fold_left (fun s ev => apply_event ev s) tr st.

(** The events before the request, and the state they leave. *)
Definition prologue : list Event :=
  [EPreventDefault; ESetLoading true; ESetError JNull; ESetAnswer JNull;
   ESetTotalScore JNull].

Definition cleared (st : State) (l : bool) (e : JsVal) : State :=
  {| query := query st; answer := JNull; totalScore := JNull;
     loading := l; error := e |}.

Definition the_request (st : State) : Event :=
  EPost endpoint (request_body (query st)).

(** *** Rendering *)

(** What a JSX slot [{...}] shows; the value carried by [ErrorMessage] and
    [Results] is the child [{error}], [{answer}] of the block. *)
Inductive Child : Type :=
| Nothing
| Text (v : JsVal)
| ErrorMessage (msg : JsVal)
| Results (badge : option Q) (answer_text : JsVal).

(** React renders [null], [undefined], booleans and the empty string as
    nothing, and a number as its digits. *)
Definition child_of_value (v : JsVal) : Child :=
  match v with
  | JUndefined | JNull | JBool _ => Nothing
  | JStr [] => Nothing
  | _ => Text v
  end.

(** Whether React accepts [v] as a child [{v}]: primitives are text or
    nothing, an array is rendered item by item, and a plain object makes the
    render throw ("Objects are not valid as a React child"). *)
Fixpoint renderable (v : JsVal) : bool :=
  match v with
  | JObj _ => false
  | JArr items =>
      (fix all (l : list JsVal) : bool :=
         match l with
         | [] => true
         | x :: r => renderable x && all r
         end) items
  | _ => true
  end.

(** [{error && (<div className="error-message"><p>... {error}</p></div>)}];
    [None] when React rejects [{error}]. *)
Definition error_slot (st : State) : option Child :=
  if truthy (error st)
  then (if renderable (error st) then Some (ErrorMessage (error st)) else None)
  else Some (child_of_value (error st)).

(** [{totalScore !== null && (<span>Confidence: {totalScore.toFixed(1)}%</span>)}]:
    [Some (Some q)] is the badge for the number [q], [Some None] no badge,
    [None] a [TypeError] ([toFixed] exists on numbers only). *)
Definition score_badge (st : State) : option (option Q) :=
  if strict_neq_null (totalScore st)
  then match totalScore st with
       | JNum q => Some (Some q)
       | _ => None
       end
  else Some None.

(** [{answer && (<div className="results-container">...{answer}...</div>)}];
    [None] when [toFixed] throws or React rejects [{answer}]. *)
Definition results_slot (st : State) : option Child :=
  if truthy (answer st)
  then match score_badge st with
       | Some badge =>
           if renderable (answer st)
           then Some (Results badge (answer st))
           else None
       | None => None
       end
  else Some (child_of_value (answer st)).

Record View : Type := {
  input_value : jsstring;
  input_disabled : bool;
  button_disabled : bool;
  button_label : jsstring;
  error_child : Child;
  results_child : Child
}.

(** The body of [Home] after the hooks, as React renders it; [None] when
    rendering throws. *)
Definition render (st : State) : option View :=
  match results_slot st, error_slot st with
  | Some r, Some e =>
      Some {| input_value := query st;
              input_disabled := loading st;
              button_disabled := loading st || negb (truthy (JStr (trim (query st))));
              button_label := if loading st then lit "Searching..." else lit "Search";
              error_child := e;
              results_child := r |}
  | _, _ => None
  end.

End Page.

(* ===================================================================== *)
(** ** Sessions of the page used as examples *)
(* ===================================================================== *)

Module PageScenarios.
Import JS Page.

Definition blank_state : State := onChange [0x20; 0x09; 0xA0; 0x0A]%N initial.

(** The placeholder question, typed with blanks around it. *)
Definition typed_state : State :=
  onChange (lit "  How to fix a washing machine that won't drain? ") initial.

Definition ok_body : JsVal :=
  JObj [(lit "answer", JStr (lit "Clean the drain pump filter."));
        (lit "total_score", JNum 50)].

Definition http_response (status : Q) (body : JsVal) : JsVal :=
  JObj [(lit "status", JNum status); (lit "data", body)].

(** A backend that answers 200 with [ok_body]. *)
Definition net_ok : Network := fun _ _ => Fulfilled (http_response 200 ok_body).

(** A backend that answers 200 with a given [answer] and a score of 12.5. *)
Definition net_answer (a : JsVal) : Network :=
  fun _ _ =>
    Fulfilled (http_response 200
      (JObj [(lit "answer", a); (lit "total_score", JNum (25 # 2))])).

(** A backend that answers 500 with a given [detail]. *)
Definition net_500 (detail : JsVal) : Network :=
  fun _ _ =>
    Rejected {| isAxiosError := true;
                response := http_response 500 (JObj [(lit "detail", detail)]) |}.

(** No backend listening: an axios error without a response. *)
Definition net_down : Network :=
  fun _ _ => Rejected {| isAxiosError := true; response := JUndefined |}.

(** A page that still shows the answer of an earlier search. *)
Definition stale_state : State :=
  {| query := lit "toaster not heating";
     answer := JStr (lit "An earlier answer"); totalScore := JNum 80;
     loading := false; error := JNull |}.

(** The reading of the error display under which every [detail] field
    present in the error body is what the user sees. *)
Definition detail_shown_whenever_present : Prop :=
  forall (net : Network) (st : State) (err : JsError)
         (body : list (jsstring * JsVal)) (d : JsVal),
    trim (query st) <> [] ->
    net endpoint (request_body (query st)) = Rejected err ->
    isAxiosError err = true ->
    opt_chain (response err) (lit "data") = JObj body ->
    In (lit "detail", d) body ->
    lookup (lit "detail") body = d ->
    error (state_after net st) = d.

End PageScenarios.

(* ===================================================================== *)
(** ** Further sessions: unusual response bodies *)
(* ===================================================================== *)

Module PageEdgeCases.
Import JS Page PageScenarios.

(** The same question as [typed_state], typed without the blanks. *)
Definition tidy_state : State :=
  onChange (lit "How to fix a washing machine that won't drain?") initial.

(** A backend that answers 200 with an answer and a given [total_score]. *)
Definition net_score (t : JsVal) : Network :=
  fun _ _ =>
    Fulfilled (http_response 200
      (JObj [(lit "answer", JStr (lit "Unplug the iron."));
             (lit "total_score", t)])).

(** A backend that answers 200 with an answer and no [total_score]. *)
Definition net_no_score : Network :=
  fun _ _ =>
    Fulfilled (http_response 200
      (JObj [(lit "answer", JStr (lit "Unplug the iron."))])).

(** A 500 whose body is not JSON: axios hands the text over as [data]. *)
Definition net_500_text : Network :=
  fun _ _ =>
    Rejected {| isAxiosError := true;
                response := http_response 500 (JStr (lit "Internal Server Error")) |}.

(** A 422 of the backend: [detail] is an array of objects. *)
Definition net_422 : Network :=
  fun _ _ =>
    Rejected {| isAxiosError := true;
                response :=
                  http_response 422
                    (JObj [(lit "detail",
                            JArr [JObj [(lit "type", JStr (lit "missing"));
                                        (lit "msg", JStr (lit "Field required"))]])]) |}.

(** A backend that answers 200 with an object where the answer text is
    expected. *)
Definition net_object_answer : Network :=
  fun _ _ =>
    Fulfilled (http_response 200
      (JObj [(lit "answer", JObj [(lit "text", JStr (lit "Unplug the iron."))]);
             (lit "total_score", JNum 50)])).

(** The states a user can bring the page to, between two submissions:
    from the initial render, by typing and by submitting, the network
    answering each submission as it pleases. *)
Inductive Reachable : State -> Prop :=
| reach_initial : Reachable initial
| reach_typing (v : jsstring) (st : State) :
    Reachable st -> Reachable (onChange v st)
| reach_submit (net : Network) (st : State) :
    Reachable st -> Reachable (state_after net st).

End PageEdgeCases.

(* ===================================================================== *)
(** ** The query-to-answer pipeline of the backend *)
(* ===================================================================== *)

Module Backend.

Local Open Scope Q_scope.

(** Modelled from the spec: the backend module ([backend/main.py]) is not
    among the sources; [SearchMatch] is the record of section 3, with the
    similarity score as a rational in place of a float. *)
Record SearchMatch : Type := {
  score : Q;
  text : string;
  source : string;
  chunk_index : Z
}.

(** Modelled from the spec: [SearchResultSet] of section 3, an ordered
    sequence of matches in the order the search service returned them. *)
Definition SearchResultSet : Type := list SearchMatch.

(** Modelled from the spec: [AnswerResult] of section 3. *)
Record AnswerResult : Type := {
  answer : string;
  total_score : Q
}.

(** Modelled from the spec: the error taxonomy of section 7. *)
Inductive Error : Type :=
| InvalidInputError
| UpstreamEmbeddingError
| UpstreamSearchError
| UpstreamGenerationError.

(** Modelled from the spec: the configuration surface of section 6 that
    the pipeline reads. *)
Record Config : Type := {
  top_k : nat;
  score_threshold_percent : Q;
  delimiter : string
}.

Definition newline : string := String (ascii_of_nat 10) EmptyString.

(** Modelled from the spec: the defaults of section 6 ([top_k] 3, threshold
    25.0) and a blank line as delimiter (section 4.2). *)
Definition default_config : Config :=
  {| top_k := 3; score_threshold_percent := 25; delimiter := (newline ++ newline)%string |}.

(** Modelled from the spec: the fixed fallback answer of section 4.1. *)
Definition FALLBACK_TEXT : string :=
  "I could not find enough information about this issue in the dataset."%string.

(** Modelled from the spec: the sum behind the mean of section 3. *)
Definition sum_scores (matches : SearchResultSet) : Q :=
  fold_right (fun m acc => score m + acc) 0 matches.

(** Modelled from the spec: the arithmetic mean of the match scores
    (section 3); [None] is the division by zero of an empty set. *)
Definition mean_score (matches : SearchResultSet) : option Q :=
  match List.length matches with
  | O => None
  | S n => Some (sum_scores matches / inject_Z (Z.of_nat (S n)))
  end.

Module ContextAssembler.

(** Modelled from the spec: [assemble] of section 4.2, the texts of the
    matches in result-set order, separated by the delimiter. *)
Fixpoint assemble (delim : string) (matches : SearchResultSet) : string :=
  match matches with
  | [] => EmptyString
  | [m] => text m
  | m :: rest => (text m ++ delim ++ assemble delim rest)%string
  end.

End ContextAssembler.

Module ConfidenceGate.

(** Modelled from the spec: [score] of section 4.3, the mean of the match
    scores times 100, with the empty set checked first. *)
Definition score (matches : SearchResultSet) : Q :=
  match matches with
  | [] => 0
  | _ :: _ =>
      match mean_score matches with
      | Some m => m * 100
      | None => 0
      end
  end.

(** Modelled from the spec: [passes] of section 4.3, [score >= threshold]. *)
Definition passes (s threshold : Q) : bool := Qle_bool threshold s.

End ConfidenceGate.

Module QueryOrchestrator.

(** Modelled from the spec: the whitespace stripped from a query, taken as
    the ASCII whitespace of Python's [str.strip]. *)
Definition is_space (c : ascii) : bool :=
  let n := nat_of_ascii c in
  ((9 <=? n) && (n <=? 13) || (n =? 32))%nat.

Fixpoint lstrip (s : list ascii) : list ascii :=
  match s with
  | [] => []
  | c :: r => if is_space c then lstrip r else s
  end.

(** Modelled from the spec: the trimming of step 1 of section 4.1. *)
Definition strip (s : string) : string :=
  string_of_list_ascii (rev (lstrip (rev (lstrip (list_ascii_of_string s))))).

Section Handle.

(** The three hosted services, injected (section 9); [None] is a failed
    call. *)
Variable EmbeddingVector : Type.
Variable embed : string -> option EmbeddingVector.
Variable search : EmbeddingVector -> nat -> option SearchResultSet.
Variable generate : string -> option string.
(** The prompt template, from the assembled context and the query. *)
Variable build_prompt : string -> string -> string.

(** Calls made to the external clients, in order. *)
Inductive Call : Type :=
| CallEmbed (q : string)
| CallSearch (v : EmbeddingVector) (k : nat)
| CallGenerate (prompt : string).

(** A request either fails with an error of the taxonomy or yields a value;
    the calls made so far are recorded either way. *)
Definition M (A : Type) : Type := list Call * (Error + A).

Definition ret {A : Type} (a : A) : M A := ([], inr a).
Definition fail {A : Type} (e : Error) : M A := ([], inl e).

Definition bind {A B : Type} (m : M A) (f : A -> M B) : M B :=
  match m with
  | (calls, inl e) => (calls, inl e)
  | (calls, inr a) => let '(calls', r) := f a in (calls ++ calls', r)
  end.

Notation "x <- c ;; k" := (bind c (fun x => k))
  (at level 61, c at next level, right associativity).

Definition call_embed (q : string) : M EmbeddingVector :=
  ([CallEmbed q],
   match embed q with Some v => inr v | None => inl UpstreamEmbeddingError end).

Definition call_search (v : EmbeddingVector) (k : nat) : M SearchResultSet :=
  ([CallSearch v k],
   match search v k with Some ms => inr ms | None => inl UpstreamSearchError end).

Definition call_generate (prompt : string) : M string :=
  ([CallGenerate prompt],
   match generate prompt with Some t => inr t | None => inl UpstreamGenerationError end).

(** Modelled from the spec: [handle] of section 4.1, steps 1 to 7. *)
Definition handle (cfg : Config) (query : string) : M AnswerResult :=
  let q := strip query in
  match q with
  | EmptyString => fail InvalidInputError
  | String _ _ =>
      v <- call_embed q ;;
      matches <- call_search v (top_k cfg) ;;
      match matches with
      | [] => ret {| answer := FALLBACK_TEXT; total_score := 0 |}
      | _ :: _ =>
          let s := ConfidenceGate.score matches in
          if ConfidenceGate.passes s (score_threshold_percent cfg)
          then
            t <- call_generate
                   (build_prompt (ContextAssembler.assemble (delimiter cfg) matches) query) ;;
            ret {| answer := t; total_score := s |}
          else ret {| answer := FALLBACK_TEXT; total_score := s |}
      end
  end.

(** The request of a valid query whose embedding and search succeed. *)
Definition served (cfg : Config) (query : string)
    (v : EmbeddingVector) (matches : SearchResultSet) : Prop :=
  strip query <> EmptyString
  /\ embed (strip query) = Some v
  /\ search v (top_k cfg) = Some matches.

Definition prompt_of (cfg : Config) (query : string) (matches : SearchResultSet) : string :=
  build_prompt (ContextAssembler.assemble (delimiter cfg) matches) query.

Definition generation_calls (calls : list Call) : nat :=
  List.length (filter (fun c => match c with CallGenerate _ => true | _ => false end) calls).

End Handle.

Arguments CallEmbed {EmbeddingVector} q.
Arguments CallSearch {EmbeddingVector} v k.
Arguments CallGenerate {EmbeddingVector} prompt.

End QueryOrchestrator.

End Backend.

(* ===================================================================== *)
(** ** Requests against mocked services *)
(* ===================================================================== *)

Module BackendScenarios.
Import Backend Backend.QueryOrchestrator.

Local Open Scope Q_scope.

Definition washing_query : string :=
  "How to fix a washing machine that won't drain?"%string.

Definition chunk (s : Q) (i : Z) : SearchMatch :=
  {| score := s; text := "chunk"%string; source := "manual.pdf"%string;
     chunk_index := i |}.

Definition high_matches : SearchResultSet :=
  [chunk (6 # 10) 0; chunk (5 # 10) 1; chunk (4 # 10) 2].

Definition low_matches : SearchResultSet :=
  [chunk (20 # 100) 0; chunk (15 # 100) 1; chunk (10 # 100) 2].

Definition threshold_matches : SearchResultSet :=
  [chunk (25 # 100) 0; chunk (30 # 100) 1; chunk (20 # 100) 2].

Definition mock_embed (q : string) : option unit := Some tt.
Definition mock_search (ms : SearchResultSet) (v : unit) (k : nat)
    : option SearchResultSet := Some ms.
Definition mock_generate (prompt : string) : option string :=
  Some "Clean the drain pump filter."%string.
Definition mock_prompt (context q : string) : string :=
  (context ++ newline ++ q)%string.

(** [handle] against the mocks, the search returning [ms]. *)
Definition mock_handle (ms : SearchResultSet) : M unit AnswerResult :=
  handle mock_embed (mock_search ms) mock_generate mock_prompt
         default_config washing_query.

End BackendScenarios.

(* ===================================================================== *)
(** ** Facts about [trim] *)
(* ===================================================================== *)

Module JSFacts.
Import JS.

Lemma trimStart_split (s : jsstring) :
  exists pre, s = pre ++ trimStart s /\ forallb is_whitespace pre = true.
Proof.
  induction s as [|c s [pre [E W]]]; simpl.
  - exists []. auto.
  - destruct (is_whitespace c) eqn:Hc.
    + exists (c :: pre). simpl. rewrite Hc, W. split; [congruence | reflexivity].
    + exists []. auto.
Qed.

Lemma trimStart_head (s : jsstring) c r :
  trimStart s = c :: r -> is_whitespace c = false.
Proof.
  induction s as [|d s IH]; simpl; [discriminate|].
  destruct (is_whitespace d) eqn:Hd; auto.
  intros E. injection E as -> _. exact Hd.
Qed.

Lemma trimStart_nil_iff (s : jsstring) :
  trimStart s = [] <-> forallb is_whitespace s = true.
Proof.
  induction s as [|c s IH]; simpl; [tauto|].
  destruct (is_whitespace c); simpl; [exact IH|].
  split; discriminate.
Qed.

Lemma trimStart_fixed (s : jsstring) c r :
  s = c :: r -> is_whitespace c = false -> trimStart s = s.
Proof. intros -> H. simpl. now rewrite H. Qed.

Lemma trimStart_idem (s : jsstring) : trimStart (trimStart s) = trimStart s.
Proof.
  destruct (trimStart s) as [|c r] eqn:E; [reflexivity|].
  apply trimStart_fixed with (c := c) (r := r); [reflexivity|].
  eapply trimStart_head; eauto.
Qed.

Lemma trimEnd_split (s : jsstring) :
  exists post, s = trimEnd s ++ post /\ forallb is_whitespace post = true.
Proof.
  unfold trimEnd.
  destruct (trimStart_split (rev s)) as [pre [E W]].
  exists (rev pre). split.
  - rewrite <- rev_app_distr, <- E. now rewrite rev_involutive.
  - rewrite forallb_forall in *. intros x Hx. apply W. now apply in_rev.
Qed.

Lemma trimEnd_nil_iff (s : jsstring) :
  trimEnd s = [] <-> forallb is_whitespace s = true.
Proof.
  unfold trimEnd. split.
  - intros H. assert (E : trimStart (rev s) = []).
    { rewrite <- (rev_involutive (trimStart (rev s))), H. reflexivity. }
    apply trimStart_nil_iff in E. rewrite forallb_forall in *.
    intros x Hx. apply E. now apply -> in_rev.
  - intros H. assert (E : trimStart (rev s) = []).
    { apply trimStart_nil_iff. rewrite forallb_forall in *.
      intros x Hx. apply H. now apply in_rev. }
    now rewrite E.
Qed.

(** Stripping the end leaves the first character in place. *)
Lemma trimEnd_keeps_head (s : jsstring) c r :
  s = c :: r -> is_whitespace c = false -> exists r', trimEnd s = c :: r'.
Proof.
  intros -> Hc.
  destruct (trimEnd_split (c :: r)) as [post [E W]].
  destruct (trimEnd (c :: r)) as [|d r'] eqn:T.
  - simpl in E. subst post. simpl in W. rewrite Hc in W. discriminate.
  - simpl in E. injection E as -> _. now exists r'.
Qed.

Lemma trimEnd_last (s : jsstring) c r :
  trimEnd s = r ++ [c] -> is_whitespace c = false.
Proof.
  unfold trimEnd. intros H.
  assert (E : trimStart (rev s) = c :: rev r).
  { rewrite <- (rev_involutive (trimStart (rev s))), H.
    now rewrite rev_app_distr. }
  eapply trimStart_head; eauto.
Qed.

(** [trim] removes a whitespace prefix and a whitespace suffix, nothing
    else. *)
Lemma trim_split (s : jsstring) :
  exists pre post,
    s = pre ++ trim s ++ post
    /\ forallb is_whitespace pre = true
    /\ forallb is_whitespace post = true.
Proof.
  destruct (trimStart_split s) as [pre [E1 W1]].
  destruct (trimEnd_split (trimStart s)) as [post [E2 W2]].
  exists pre, post. unfold trim. rewrite <- E2. auto.
Qed.

(** What is left neither starts nor ends with whitespace. *)
Lemma trim_first (s : jsstring) c r :
  trim s = c :: r -> is_whitespace c = false.
Proof.
  unfold trim. intros H.
  destruct (trimStart s) as [|d t] eqn:E.
  - discriminate.
  - pose proof (trimStart_head s E) as Hd.
    destruct (@trimEnd_keeps_head (d :: t) d t eq_refl Hd) as [r' T].
    rewrite T in H. injection H as -> _. exact Hd.
Qed.

Lemma trim_last (s : jsstring) c r :
  trim s = r ++ [c] -> is_whitespace c = false.
Proof. unfold trim. apply trimEnd_last. Qed.

(** The trimmed string is empty exactly for blank input. *)
Lemma trim_nil_iff (s : jsstring) :
  trim s = [] <-> forallb is_whitespace s = true.
Proof.
  unfold trim. rewrite trimEnd_nil_iff. split.
  - intros H. destruct (trimStart s) as [|c r] eqn:E.
    + now apply trimStart_nil_iff.
    + simpl in H. now rewrite (trimStart_head s E) in H.
  - intros H. apply trimStart_nil_iff in H. now rewrite H.
Qed.

End JSFacts.

(* ===================================================================== *)
(** ** Facts about the search page *)
(* ===================================================================== *)

Module PageFacts.
Import JS JSFacts Page PageScenarios.

#[local] Arguments lit : simpl never.
#[local] Arguments endpoint : simpl never.
#[local] Arguments request_body : simpl never.
#[local] Arguments response_data_field : simpl never.
#[local] Arguments error_message : simpl never.

Lemma perform_replay net X (e : Action X) st :
  snd (fst (perform net e st)) = apply_event (fst (fst (perform net e st))) st.
Proof. destruct e; reflexivity. Qed.

(** The final state of a run is its trace replayed on the initial state. *)
Lemma run_replay net A (p : Prog A) st :
  snd (fst (run net p st)) = replay (fst (fst (run net p st))) st.
Proof.
  revert st. induction p as [a | X e k IH]; intros st; simpl; [reflexivity|].
  pose proof (perform_replay net e st) as P.
  destruct (perform net e st) as [[ev st1] x]. simpl in P.
  specialize (IH x st1).
  destruct (run net (k x) st1) as [[tr st2] a]. simpl in *.
  now rewrite <- P.
Qed.

Lemma submit_blank net st :
  trim (query st) = [] -> submit net st = ([EPreventDefault], st).
Proof.
  intros E. unfold submit, handleSearch. rewrite E. reflexivity.
Qed.

Lemma submit_rejected net st err :
  trim (query st) <> [] ->
  net endpoint (request_body (query st)) = Rejected err ->
  submit net st =
    (prologue ++ [the_request st;
                  ESetError (if isAxiosError err then error_message err
                             else JStr unexpected_error);
                  ESetLoading false],
     cleared st false (if isAxiosError err then error_message err
                       else JStr unexpected_error)).
Proof.
  intros Hq Hn. unfold submit, handleSearch, the_request, try_block.
  destruct (trim (query st)) as [|c r] eqn:E; [congruence|].
  cbn. rewrite Hn. cbn. unfold catch_block.
  destruct (isAxiosError err); reflexivity.
Qed.

Lemma response_data_field_object resp fields k :
  get_prop resp (lit "data") = Some (JObj fields) ->
  response_data_field resp k = Some (lookup k fields).
Proof. intros H. unfold response_data_field. now rewrite H. Qed.

(** Both reads of the [try] block go through [response.data]: they throw
    together or not at all. *)
Lemma response_data_field_total resp k k' a :
  response_data_field resp k = Some a ->
  exists b, response_data_field resp k' = Some b.
Proof.
  unfold response_data_field.
  destruct (get_prop resp (lit "data")) as [d|]; [|discriminate].
  destruct d; simpl; try discriminate; eauto.
Qed.

Lemma submit_fulfilled net st resp a t :
  trim (query st) <> [] ->
  net endpoint (request_body (query st)) = Fulfilled resp ->
  response_data_field resp (lit "answer") = Some a ->
  response_data_field resp (lit "total_score") = Some t ->
  submit net st =
    (prologue ++ [the_request st; ESetAnswer a; ESetTotalScore t;
                  ESetLoading false],
     {| query := query st; answer := a; totalScore := t;
        loading := false; error := JNull |}).
Proof.
  intros Hq Hn Ha Ht. unfold submit, handleSearch, the_request, try_block.
  destruct (trim (query st)) as [|c r] eqn:E; [congruence|].
  cbn. rewrite Hn. cbn. rewrite Ha. cbn. rewrite Ht. reflexivity.
Qed.

Lemma submit_fulfilled_throws net st resp :
  trim (query st) <> [] ->
  net endpoint (request_body (query st)) = Fulfilled resp ->
  response_data_field resp (lit "answer") = None ->
  submit net st =
    (prologue ++ [the_request st; ESetError (JStr unexpected_error);
                  ESetLoading false],
     cleared st false (JStr unexpected_error)).
Proof.
  intros Hq Hn Ha. unfold submit, handleSearch, the_request, try_block.
  destruct (trim (query st)) as [|c r] eqn:E; [congruence|].
  cbn. rewrite Hn. cbn. rewrite Ha. reflexivity.
Qed.

(** Every submission of a non-blank query has the same shape: the
    prologue, the request, the setters of the branch taken, and the
    [finally] clause. *)
Lemma submit_shape net st :
  trim (query st) <> [] ->
  exists mid,
    trace_of net st = prologue ++ the_request st :: mid ++ [ESetLoading false]
    /\ forallb (fun ev => negb (is_post ev)) mid = true
    /\ loading (state_after net st) = false
    /\ (error (state_after net st) = JNull \/
        (answer (state_after net st) = JNull
         /\ totalScore (state_after net st) = JNull
         /\ truthy (error (state_after net st)) = true)).
Proof.
  intros Hq. unfold trace_of, state_after.
  destruct (net endpoint (request_body (query st))) as [resp|err] eqn:Hn.
  - destruct (response_data_field resp (lit "answer")) as [a|] eqn:Ha.
    + destruct (@response_data_field_total resp (lit "answer") (lit "total_score") a Ha) as [t Ht].
      rewrite (submit_fulfilled net st Hq Hn Ha Ht).
      exists [ESetAnswer a; ESetTotalScore t]. simpl. auto.
    + rewrite (submit_fulfilled_throws net st Hq Hn Ha).
      exists [ESetError (JStr unexpected_error)]. simpl.
      repeat split; auto.
  - rewrite (submit_rejected net st Hq Hn).
    eexists [ESetError _]. simpl. repeat split; auto.
    right. repeat split; auto.
    destruct (isAxiosError err); [|reflexivity].
    unfold error_message, js_or.
    destruct (truthy (opt_chain _ _)) eqn:T; [exact T | reflexivity].
Qed.

(** C1. A query that is empty or consists of whitespace only has an empty
    trimmed form, and submitting it performs [e.preventDefault()] and nothing
    else: no request is issued to the network and no state cell changes,
    whatever the network would have answered. *)
Theorem blank_query_issues_no_request (net : Network) (st : State) :
  forallb is_whitespace (query st) = true ->
  trim (query st) = []
  /\ handleSearch (query st) = (trigger PreventDefault ;;; Ret tt)
  /\ trace_of net st = [EPreventDefault]
  /\ filter is_post (trace_of net st) = []
  /\ state_after net st = st.
Proof.
  intros W. apply trim_nil_iff in W.
  unfold trace_of, state_after. rewrite (submit_blank net st W).
  repeat split; auto.
  unfold handleSearch. rewrite W. reflexivity.
Qed.

Lemma blank_query_issues_no_request_witness :
  forallb is_whitespace (query blank_state) = true
  /\ trace_of (fun _ _ => Fulfilled JNull) blank_state = [EPreventDefault].
Proof.
  split; [reflexivity|].
  apply (blank_query_issues_no_request (fun _ _ => Fulfilled JNull) blank_state).
  reflexivity.
Defined.

(** A successful search, effect by effect. *)
Example successful_search_trace :
  submit net_ok typed_state
  = ([EPreventDefault; ESetLoading true; ESetError JNull; ESetAnswer JNull;
      ESetTotalScore JNull;
      EPost endpoint
            (JObj [(lit "query",
                    JStr (lit "How to fix a washing machine that won't drain?"))]);
      ESetAnswer (JStr (lit "Clean the drain pump filter."));
      ESetTotalScore (JNum 50);
      ESetLoading false],
     {| query := query typed_state;
        answer := JStr (lit "Clean the drain pump filter.");
        totalScore := JNum 50; loading := false; error := JNull |}).
Proof. reflexivity. Qed.

Example successful_search_view :
  render (state_after net_ok typed_state)
  = Some {| input_value := query typed_state;
            input_disabled := false;
            button_disabled := false;
            button_label := lit "Search";
            error_child := Nothing;
            results_child := Results (Some 50)
                               (JStr (lit "Clean the drain pump filter.")) |}.
Proof. reflexivity. Qed.

(** A fulfilled promise without a body makes [response.data.answer] throw;
    the [catch] clause reports it as an unexpected error. *)
Example bodiless_response_is_unexpected :
  submit (fun _ _ => Fulfilled (JObj [(lit "status", JNum 204)])) typed_state
  = (prologue ++ [the_request typed_state;
                  ESetError (JStr (lit "An unexpected error occurred"));
                  ESetLoading false],
     cleared typed_state false (JStr (lit "An unexpected error occurred"))).
Proof. reflexivity. Qed.

Lemma typed_state_not_blank : trim (query typed_state) <> [].
Proof. vm_compute. discriminate. Qed.

(** C2. Submitting a query whose trimmed form is not empty issues exactly
    one request, a POST to the [/query] endpoint with body
    [{query: <trimmed query>}]; when the promise is fulfilled (axios does so
    for a 2xx status) with a JSON object as body, [answer] and [totalScore]
    become the body's [answer] and [total_score] fields as they are, and no
    error is set. *)
Theorem nonblank_query_posts_once_and_stores (net : Network) (st : State) :
  trim (query st) <> [] ->
  filter is_post (trace_of net st)
    = [EPost (lit "http://localhost:8000/query")
             (JObj [(lit "query", JStr (trim (query st)))])]
  /\ forall resp fields,
       net endpoint (request_body (query st)) = Fulfilled resp ->
       get_prop resp (lit "data") = Some (JObj fields) ->
       answer (state_after net st) = lookup (lit "answer") fields
       /\ totalScore (state_after net st) = lookup (lit "total_score") fields
       /\ error (state_after net st) = JNull.
Proof.
  intros Hq. split.
  - destruct (submit_shape net st Hq) as [mid [T [Hmid _]]].
    rewrite T. simpl. rewrite filter_app. simpl. rewrite app_nil_r.
    replace (filter is_post mid) with (@nil Event); [reflexivity|].
    clear T. induction mid as [|ev mid IH]; [reflexivity|].
    simpl in *. apply andb_true_iff in Hmid as [H1 H2].
    destruct (is_post ev); [discriminate | auto].
  - intros resp fields Hn Hd. unfold state_after.
    rewrite (submit_fulfilled net st Hq Hn
               (response_data_field_object resp (lit "answer") Hd)
               (response_data_field_object resp (lit "total_score") Hd)).
    simpl. auto.
Qed.

Lemma nonblank_query_posts_once_and_stores_witness :
  trim (query typed_state) <> []
  /\ answer (state_after net_ok typed_state) = JStr (lit "Clean the drain pump filter.")
  /\ totalScore (state_after net_ok typed_state) = JNum 50.
Proof.
  split; [exact typed_state_not_blank|].
  destruct (nonblank_query_posts_once_and_stores net_ok typed_state
              typed_state_not_blank) as [_ H].
  destruct (H (http_response 200 ok_body)
              [(lit "answer", JStr (lit "Clean the drain pump filter."));
               (lit "total_score", JNum 50)] eq_refl eq_refl) as [Ha [Ht _]].
  split; [exact Ha | exact Ht].
Defined.

(** C3. Whatever is posted goes to the [/query] endpoint and carries as
    [query] the input with its leading and trailing whitespace removed: the
    input is a whitespace prefix, the transmitted string, and a whitespace
    suffix, and the transmitted string is not empty and neither starts nor
    ends with whitespace. *)
Theorem posted_query_is_trimmed (net : Network) (st : State) url body :
  In (EPost url body) (trace_of net st) ->
  url = endpoint
  /\ body = JObj [(lit "query", JStr (trim (query st)))]
  /\ (exists pre post,
        query st = pre ++ trim (query st) ++ post
        /\ forallb is_whitespace pre = true
        /\ forallb is_whitespace post = true)
  /\ trim (query st) <> []
  /\ (forall c r, trim (query st) = c :: r -> is_whitespace c = false)
  /\ (forall c r, trim (query st) = r ++ [c] -> is_whitespace c = false).
Proof.
  intros Hin.
  assert (Hq : trim (query st) <> []).
  { intros E. unfold trace_of in Hin. rewrite (submit_blank net st E) in Hin.
    simpl in Hin. destruct Hin as [H|[]]. discriminate. }
  destruct (submit_shape net st Hq) as [mid [T [Hmid _]]].
  rewrite T in Hin. clear T.
  assert (Hreq : EPost url body = the_request st).
  { apply in_app_or in Hin as [Hin|Hin].
    - simpl in Hin. repeat (destruct Hin as [Hin|Hin]; [discriminate|]).
      destruct Hin.
    - destruct Hin as [Hin|Hin]; [now symmetry|].
      apply in_app_or in Hin as [Hin|Hin].
      + rewrite forallb_forall in Hmid. apply Hmid in Hin. discriminate.
      + destruct Hin as [Hin|[]]. discriminate. }
  unfold the_request, request_body in Hreq. injection Hreq as -> ->.
  repeat split; auto.
  - apply trim_split.
  - intros c r. apply trim_first.
  - intros c r. apply trim_last.
Qed.

Lemma posted_query_is_trimmed_witness :
  In (EPost endpoint (request_body (query typed_state))) (trace_of net_ok typed_state)
  /\ request_body (query typed_state)
     = JObj [(lit "query",
              JStr (lit "How to fix a washing machine that won't drain?"))].
Proof.
  assert (Hin : In (EPost endpoint (request_body (query typed_state)))
                   (trace_of net_ok typed_state)).
  { vm_compute. do 5 right. left. reflexivity. }
  split; [exact Hin|].
  destruct (posted_query_is_trimmed net_ok typed_state _ _ Hin) as [_ [Hb _]].
  rewrite Hb. reflexivity.
Defined.

(** A 500 response whose body is [{"detail": ""}]: the field is present, and
    the page shows the fixed string instead of it. *)
Lemma empty_detail_is_not_shown :
  error (state_after (net_500 (JStr [])) typed_state) = JStr generic_search_error
  /\ ~ detail_shown_whenever_present.
Proof.
  split; [reflexivity|].
  intros H.
  specialize (H (net_500 (JStr [])) typed_state
                {| isAxiosError := true;
                   response := http_response 500 (JObj [(lit "detail", JStr [])]) |}
                [(lit "detail", JStr [])] (JStr [])
                typed_state_not_blank eq_refl eq_refl eq_refl
                (or_introl eq_refl) eq_refl).
  vm_compute in H. discriminate.
Qed.

(** C4, amended. When the request fails, [answer] and [totalScore] stay
    [null] and the error shown is: for an axios error, the [detail] field of
    the error response body when that field is present and truthy (not
    [null], [false], [0] or the empty string), and 'An error occurred while
    searching' otherwise; for any other failure, a response without a
    readable body included, 'An unexpected error occurred'. *)
Theorem failed_request_error_message (net : Network) (st : State) :
  trim (query st) <> [] ->
  (forall err,
      net endpoint (request_body (query st)) = Rejected err ->
      let detail := opt_chain (opt_chain (response err) (lit "data")) (lit "detail") in
      error (state_after net st)
        = (if isAxiosError err
           then (if truthy detail then detail
                 else JStr (lit "An error occurred while searching"))
           else JStr (lit "An unexpected error occurred"))
      /\ answer (state_after net st) = JNull
      /\ totalScore (state_after net st) = JNull)
  /\ (forall resp,
      net endpoint (request_body (query st)) = Fulfilled resp ->
      response_data_field resp (lit "answer") = None ->
      error (state_after net st) = JStr (lit "An unexpected error occurred")
      /\ answer (state_after net st) = JNull
      /\ totalScore (state_after net st) = JNull).
Proof.
  intros Hq. split.
  - intros err Hn detail. unfold state_after.
    rewrite (submit_rejected net st Hq Hn). simpl. auto.
  - intros resp Hn Ha. unfold state_after.
    rewrite (submit_fulfilled_throws net st Hq Hn Ha). simpl. auto.
Qed.

Lemma failed_request_error_message_witness :
  trim (query typed_state) <> []
  /\ error (state_after (net_500 (JStr (lit "Error querying database"))) typed_state)
     = JStr (lit "Error querying database")
  /\ error (state_after net_down typed_state)
     = JStr (lit "An error occurred while searching").
Proof.
  split; [exact typed_state_not_blank|]. split.
  - destruct (failed_request_error_message
                (net_500 (JStr (lit "Error querying database"))) typed_state
                typed_state_not_blank) as [H _].
    destruct (H _ eq_refl) as [He _]. exact He.
  - destruct (failed_request_error_message net_down typed_state
                typed_state_not_blank) as [H _].
    destruct (H _ eq_refl) as [He _]. exact He.
Defined.

Lemma last_snoc {A : Type} (l : list A) (x d : A) : last (l ++ [x]) d = x.
Proof.
  induction l as [|a l IH]; [reflexivity|].
  simpl. destruct (l ++ [x]) eqn:E; [destruct l; discriminate | exact IH].
Qed.

(** Reading the controls off a render. *)
Lemma render_controls (s : State) (v : View) :
  render s = Some v ->
  input_value v = query s
  /\ input_disabled v = loading s
  /\ button_disabled v = (loading s || negb (truthy (JStr (trim (query s)))))
  /\ button_label v = (if loading s then lit "Searching..." else lit "Search").
Proof.
  unfold render. intros R.
  destruct (results_slot s); [|discriminate].
  destruct (error_slot s); [|discriminate].
  injection R as <-. simpl. auto.
Qed.

(** A state without error and without answer always renders. *)
Lemma render_cleared (s : State) :
  error s = JNull -> answer s = JNull ->
  render s
  = Some {| input_value := query s;
            input_disabled := loading s;
            button_disabled := loading s || negb (truthy (JStr (trim (query s))));
            button_label := if loading s then lit "Searching..." else lit "Search";
            error_child := Nothing;
            results_child := Nothing |}.
Proof.
  intros E A. unfold render, results_slot, error_slot. rewrite E, A. reflexivity.
Qed.

(** C8. Submitting a non-blank query sets [loading] to [true] before the
    request is issued and to [false] as the last effect of the handler,
    whichever way the request settles, so [loading] is [false] in the final
    state. While the request is pending the page does render, with the
    input field and the submit button disabled and the label
    'Searching...'; every loading state without error and answer renders
    that way, and no render of a loading state has an enabled control. Once
    the request has settled no render of the final state is in the loading
    state: input and button are enabled and the label is 'Search'. *)
Theorem loading_flag_brackets_request (net : Network) (st : State) :
  trim (query st) <> [] ->
  (exists before after,
      trace_of net st = before ++ the_request st :: after
      /\ In (ESetLoading true) before
      /\ ~ In (ESetLoading false) before
      /\ filter is_post before = []
      /\ loading (replay before st) = true
      /\ render (replay before st)
         = Some {| input_value := query st;
                   input_disabled := true;
                   button_disabled := true;
                   button_label := lit "Searching...";
                   error_child := Nothing;
                   results_child := Nothing |}
      /\ last after EPreventDefault = ESetLoading false)
  /\ state_after net st = replay (trace_of net st) st
  /\ loading (state_after net st) = false
  /\ (forall v,
        render (state_after net st) = Some v ->
        input_disabled v = false
        /\ button_disabled v = false
        /\ button_label v = lit "Search")
  /\ (renderable (error (state_after net st)) = true ->
      renderable (answer (state_after net st)) = true ->
      (truthy (answer (state_after net st)) = true ->
       totalScore (state_after net st) = JNull
       \/ exists q, totalScore (state_after net st) = JNum q) ->
      exists v,
        render (state_after net st) = Some v
        /\ input_disabled v = false /\ button_disabled v = false)
  /\ (forall s,
        loading s = true -> error s = JNull -> answer s = JNull ->
        exists v,
          render s = Some v
          /\ input_disabled v = true /\ button_disabled v = true
          /\ button_label v = lit "Searching...")
  /\ (forall s v,
        loading s = true -> render s = Some v ->
        input_disabled v = true /\ button_disabled v = true).
Proof.
  intros Hq.
  destruct (submit_shape net st Hq) as [mid [T [_ [L _]]]].
  assert (Q : query (state_after net st) = query st).
  { unfold state_after.
    destruct (net endpoint (request_body (query st))) as [resp|err] eqn:Hn.
    - destruct (response_data_field resp (lit "answer")) as [a|] eqn:Ha.
      + destruct (@response_data_field_total resp (lit "answer")
                    (lit "total_score") a Ha) as [t Ht].
        now rewrite (submit_fulfilled net st Hq Hn Ha Ht).
      + now rewrite (submit_fulfilled_throws net st Hq Hn Ha).
    - now rewrite (submit_rejected net st Hq Hn). }
  assert (Ctl : forall v,
             render (state_after net st) = Some v ->
             input_disabled v = false
             /\ button_disabled v = false
             /\ button_label v = lit "Search").
  { intros v R. destruct (render_controls _ R) as [_ [I [B Lb]]].
    rewrite L in I, B, Lb. rewrite Q in B. simpl in B.
    repeat split; auto.
    rewrite B. destruct (trim (query st)); [congruence | reflexivity]. }
  split; [|split; [|split; [|split; [|split; [|split]]]]].
  - exists prologue, (mid ++ [ESetLoading false]).
    repeat split; auto.
    + simpl. auto.
    + simpl. intros H.
      repeat (destruct H as [H|H]; [discriminate|]). exact H.
    + apply last_snoc.
  - unfold state_after, trace_of, submit.
    apply (run_replay net (handleSearch (query st)) st).
  - exact L.
  - exact Ctl.
  - intros Re Ra Hs.
    assert (R : exists v, render (state_after net st) = Some v).
    { unfold render, results_slot, score_badge, error_slot. rewrite Re, Ra.
      destruct (truthy (error (state_after net st)));
        destruct (truthy (answer (state_after net st))); eauto.
      - destruct (Hs eq_refl) as [-> | [q ->]]; simpl; eauto.
      - destruct (Hs eq_refl) as [-> | [q ->]]; simpl; eauto. }
    destruct R as [v R]. exists v. split; [exact R|].
    destruct (Ctl v R) as [I [B _]]. auto.
  - intros s Ls E A. rewrite (render_cleared s E A), Ls.
    eexists. repeat split.
  - intros s v Ls R. destruct (render_controls _ R) as [_ [I [B _]]].
    rewrite Ls in I, B. auto.
Qed.

Lemma loading_flag_brackets_request_witness :
  trim (query typed_state) <> []
  /\ loading (state_after net_ok typed_state) = false
  /\ loading (state_after net_down typed_state) = false
  /\ (exists v, render (replay prologue typed_state) = Some v
                /\ input_disabled v = true /\ button_disabled v = true)
  /\ (exists v, render (state_after net_ok typed_state) = Some v
                /\ input_disabled v = false /\ button_disabled v = false)
  /\ (exists v, render (state_after net_down typed_state) = Some v
                /\ input_disabled v = false /\ button_disabled v = false).
Proof.
  pose proof (loading_flag_brackets_request net_ok typed_state
                typed_state_not_blank) as Hok.
  pose proof (loading_flag_brackets_request net_down typed_state
                typed_state_not_blank) as Hdown.
  split; [exact typed_state_not_blank|].
  split; [exact (proj1 (proj2 (proj2 Hok)))|].
  split; [exact (proj1 (proj2 (proj2 Hdown)))|].
  split; [|split].
  - destruct (proj2 (proj2 (proj2 (proj2 (proj2 Hok))))) as [P _].
    destruct (P (replay prologue typed_state) eq_refl eq_refl eq_refl)
      as [v [R [I [B _]]]].
    exists v. auto.
  - destruct (proj1 (proj2 (proj2 (proj2 Hok))) _ eq_refl) as [I [B _]].
    eexists. split; [reflexivity|]. split; [exact I | exact B].
  - destruct (proj1 (proj2 (proj2 (proj2 Hdown))) _ eq_refl) as [I [B _]].
    eexists. split; [reflexivity|]. split; [exact I | exact B].
Defined.

(** C9. Submitting a non-blank query first resets [error], [answer] and
    [totalScore] to [null], before the request; afterwards [error] or
    [answer] is [null] (an error leaves [answer] and [totalScore] [null],
    whatever they held before), so no render of the final state shows an
    error message together with an answer block. *)
Theorem error_and_answer_exclusive (net : Network) (st : State) :
  trim (query st) <> [] ->
  (exists rest,
      trace_of net st
        = [EPreventDefault; ESetLoading true; ESetError JNull;
           ESetAnswer JNull; ESetTotalScore JNull]
          ++ the_request st :: rest
      /\ error (replay prologue st) = JNull
      /\ answer (replay prologue st) = JNull
      /\ totalScore (replay prologue st) = JNull)
  /\ (error (state_after net st) = JNull \/ answer (state_after net st) = JNull)
  /\ (error (state_after net st) <> JNull ->
      answer (state_after net st) = JNull
      /\ totalScore (state_after net st) = JNull)
  /\ (forall v,
        render (state_after net st) = Some v ->
        match error_child v, results_child v with
        | ErrorMessage _, Results _ _ => False
        | _, _ => True
        end).
Proof.
  intros Hq.
  destruct (submit_shape net st Hq) as [mid [T [_ [_ X]]]].
  repeat split.
  - exists (mid ++ [ESetLoading false]). repeat split. exact T.
  - destruct X as [E | [A _]]; auto.
  - destruct X as [E | [A [S _]]]; [contradiction | exact A].
  - destruct X as [E | [A [S _]]]; [contradiction | exact S].
  - intros v R. unfold render in R.
    destruct (results_slot (state_after net st)) as [r|] eqn:Hr; [|discriminate].
    destruct (error_slot (state_after net st)) as [e|] eqn:He; [|discriminate].
    injection R as <-. simpl.
    destruct X as [E | [A _]].
    + unfold error_slot in He. rewrite E in He. simpl in He.
      injection He as <-. exact I.
    + unfold results_slot in Hr. rewrite A in Hr. simpl in Hr.
      injection Hr as <-. now destruct e.
Qed.

Lemma error_and_answer_exclusive_witness :
  trim (query stale_state) <> []
  /\ (error (state_after net_down stale_state) <> JNull ->
      answer (state_after net_down stale_state) = JNull
      /\ totalScore (state_after net_down stale_state) = JNull).
Proof.
  assert (Hq : trim (query stale_state) <> []) by (vm_compute; discriminate).
  split; [exact Hq|].
  destruct (error_and_answer_exclusive net_down stale_state Hq) as [_ [_ [H _]]].
  exact H.
Defined.

(** C10. When the request is fulfilled with a body whose [answer] is
    [null] or the empty string, the page stores [answer] and [total_score] as
    received and renders neither an error message nor an answer block; the
    score badge, which is built inside the answer block only, is not
    rendered either, whatever the score. *)
Theorem null_or_empty_answer_renders_nothing
    (net : Network) (st : State) resp fields :
  trim (query st) <> [] ->
  net endpoint (request_body (query st)) = Fulfilled resp ->
  get_prop resp (lit "data") = Some (JObj fields) ->
  lookup (lit "answer") fields = JNull \/ lookup (lit "answer") fields = JStr [] ->
  answer (state_after net st) = lookup (lit "answer") fields
  /\ totalScore (state_after net st) = lookup (lit "total_score") fields
  /\ exists v,
       render (state_after net st) = Some v
       /\ error_child v = Nothing
       /\ results_child v = Nothing
       /\ (forall badge txt, results_child v <> Results badge txt).
Proof.
  intros Hq Hn Hd Ha. unfold state_after.
  rewrite (submit_fulfilled net st Hq Hn
             (response_data_field_object resp (lit "answer") Hd)
             (response_data_field_object resp (lit "total_score") Hd)).
  simpl. repeat split.
  unfold render, results_slot, error_slot. simpl.
  destruct Ha as [-> | ->]; simpl; eexists; repeat split; simpl; discriminate.
Qed.

Lemma null_or_empty_answer_renders_nothing_witness :
  trim (query typed_state) <> []
  /\ totalScore (state_after (net_answer JNull) typed_state) = JNum (25 # 2)
  /\ totalScore (state_after (net_answer (JStr [])) typed_state) = JNum (25 # 2).
Proof.
  split; [exact typed_state_not_blank|]. split.
  - destruct (null_or_empty_answer_renders_nothing
                (net_answer JNull) typed_state
                (resp := http_response 200
                   (JObj [(lit "answer", JNull); (lit "total_score", JNum (25 # 2))]))
                typed_state_not_blank eq_refl eq_refl (or_introl eq_refl))
      as [_ [H _]]. exact H.
  - destruct (null_or_empty_answer_renders_nothing
                (net_answer (JStr [])) typed_state
                (resp := http_response 200
                   (JObj [(lit "answer", JStr []); (lit "total_score", JNum (25 # 2))]))
                typed_state_not_blank eq_refl eq_refl (or_intror eq_refl))
      as [_ [H _]]. exact H.
Defined.

End PageFacts.

(* ===================================================================== *)
(** ** Facts about the pipeline *)
(* ===================================================================== *)

Module BackendFacts.
Import Backend Backend.QueryOrchestrator BackendScenarios.

Local Open Scope Q_scope.

Section Pipeline.

Variable EmbeddingVector : Type.
Variable embed : string -> option EmbeddingVector.
Variable search : EmbeddingVector -> nat -> option SearchResultSet.
Variable generate : string -> option string.
Variable build_prompt : string -> string -> string.

Let run_handle := handle embed search generate build_prompt.
Let is_served := served embed search.
Let the_prompt := prompt_of build_prompt.

Lemma handle_served cfg query v matches :
  is_served cfg query v matches ->
  run_handle cfg query =
    match matches with
    | [] => ([CallEmbed (strip query); CallSearch v (top_k cfg)],
             inr {| answer := FALLBACK_TEXT; total_score := 0 |})
    | _ :: _ =>
        if ConfidenceGate.passes (ConfidenceGate.score matches)
                                 (score_threshold_percent cfg)
        then ([CallEmbed (strip query); CallSearch v (top_k cfg);
               CallGenerate (the_prompt cfg query matches)],
              match generate (the_prompt cfg query matches) with
              | Some t => inr {| answer := t;
                                 total_score := ConfidenceGate.score matches |}
              | None => inl UpstreamGenerationError
              end)
        else ([CallEmbed (strip query); CallSearch v (top_k cfg)],
              inr {| answer := FALLBACK_TEXT;
                     total_score := ConfidenceGate.score matches |})
    end.
Proof.
  intros [Hq [He Hs]]. unfold run_handle, handle.
  destruct (strip query) as [|c r] eqn:E; [congruence|].
  unfold bind, call_embed, call_search. rewrite He, Hs.
  destruct matches as [|m ms]; [reflexivity|].
  destruct (ConfidenceGate.passes _ _); [|reflexivity].
  unfold call_generate, the_prompt, prompt_of.
  destruct (generate _); reflexivity.
Qed.

Lemma passes_iff (s threshold : Q) :
  ConfidenceGate.passes s threshold = true <-> threshold <= s.
Proof. unfold ConfidenceGate.passes. apply Qle_bool_iff. Qed.

Lemma passes_false_iff (s threshold : Q) :
  ConfidenceGate.passes s threshold = false <-> s < threshold.
Proof.
  split.
  - intros H. apply Qnot_le_lt. intros L. apply passes_iff in L. congruence.
  - intros H. destruct (ConfidenceGate.passes s threshold) eqn:P; [|reflexivity].
    apply passes_iff in P. exfalso. exact (Qlt_not_le _ _ H P).
Qed.

Lemma score_is_mean_percent (matches : SearchResultSet) :
  matches <> [] ->
  ConfidenceGate.score matches
    == sum_scores matches / inject_Z (Z.of_nat (List.length matches)) * 100.
Proof.
  destruct matches as [|m ms]; [congruence|]. intros _. reflexivity.
Qed.

(** C5. For a non-empty result set the confidence score is the mean of the
    match scores times 100, and the generator is invoked (once) exactly when
    that score is greater than or equal to the threshold, the fallback being
    taken exactly when it is strictly below; a score equal to the threshold
    takes the generation path. *)
Theorem generation_iff_score_reaches_threshold cfg query v matches :
  is_served cfg query v matches ->
  matches <> [] ->
  ConfidenceGate.score matches
    == sum_scores matches / inject_Z (Z.of_nat (List.length matches)) * 100
  /\ (generation_calls (fst (run_handle cfg query)) = 1%nat
      <-> score_threshold_percent cfg <= ConfidenceGate.score matches)
  /\ (generation_calls (fst (run_handle cfg query)) = 0%nat
      <-> ConfidenceGate.score matches < score_threshold_percent cfg)
  /\ (score_threshold_percent cfg <= ConfidenceGate.score matches ->
      fst (run_handle cfg query)
        = [CallEmbed (strip query); CallSearch v (top_k cfg);
           CallGenerate (the_prompt cfg query matches)])
  /\ (ConfidenceGate.score matches == score_threshold_percent cfg ->
      generation_calls (fst (run_handle cfg query)) = 1%nat).
Proof.
  intros Hs Hne.
  pose proof (handle_served Hs) as E.
  destruct matches as [|m ms]; [congruence|].
  set (sc := ConfidenceGate.score (m :: ms)) in *.
  assert (Hyes : score_threshold_percent cfg <= sc ->
                 fst (run_handle cfg query)
                 = [CallEmbed (strip query); CallSearch v (top_k cfg);
                    CallGenerate (the_prompt cfg query (m :: ms))]).
  { intros L. apply passes_iff in L. rewrite E, L. reflexivity. }
  assert (Hno : sc < score_threshold_percent cfg ->
                fst (run_handle cfg query)
                = [CallEmbed (strip query); CallSearch v (top_k cfg)]).
  { intros L. apply passes_false_iff in L. rewrite E, L. reflexivity. }
  split; [apply score_is_mean_percent; discriminate|].
  split; [|split; [|split]].
  - split.
    + intros G. destruct (Qlt_le_dec sc (score_threshold_percent cfg)) as [L|L]; [|exact L].
      rewrite (Hno L) in G. discriminate.
    + intros L. rewrite (Hyes L). reflexivity.
  - split.
    + intros G. destruct (Qlt_le_dec sc (score_threshold_percent cfg)) as [L|L]; [exact L|].
      rewrite (Hyes L) in G. discriminate.
    + intros L. rewrite (Hno L). reflexivity.
  - exact Hyes.
  - intros Heq. rewrite Hyes; [reflexivity|].
    rewrite Heq. apply Qle_refl.
Qed.

(** C6. When the search returns no match, the confidence score is 0 by
    the check for the empty set (the mean, a division by the number of
    matches, is not defined there), a gate with a positive threshold does not
    pass, the generator is not invoked, and the result is the fallback text
    with a total score of 0. *)
Theorem empty_result_set_falls_back cfg query v :
  is_served cfg query v [] ->
  ConfidenceGate.score [] = 0
  /\ mean_score [] = None
  /\ (forall threshold, 0 < threshold ->
        ConfidenceGate.passes (ConfidenceGate.score []) threshold = false)
  /\ ConfidenceGate.passes (ConfidenceGate.score [])
                           (score_threshold_percent default_config) = false
  /\ run_handle cfg query
     = ([CallEmbed (strip query); CallSearch v (top_k cfg)],
        inr {| answer := FALLBACK_TEXT; total_score := 0 |})
  /\ generation_calls (fst (run_handle cfg query)) = 0%nat.
Proof.
  intros Hs. pose proof (handle_served Hs) as E. simpl in E.
  repeat split; auto.
  - intros threshold Hpos. now apply passes_false_iff.
  - rewrite E. reflexivity.
Qed.

(** C7. On the fallback path, taken for an empty result set or a score
    below the threshold, the result is the answer 'I could not find enough
    information about this issue in the dataset.' together with the
    confidence score computed from the matches; the generator is not
    invoked. *)
Theorem fallback_reports_computed_score cfg query v matches :
  is_served cfg query v matches ->
  matches = [] \/
  ConfidenceGate.passes (ConfidenceGate.score matches)
                        (score_threshold_percent cfg) = false ->
  run_handle cfg query
  = ([CallEmbed (strip query); CallSearch v (top_k cfg)],
     inr {| answer :=
              "I could not find enough information about this issue in the dataset.";
            total_score := ConfidenceGate.score matches |}).
Proof.
  intros Hs Hf. rewrite (handle_served Hs).
  destruct matches as [|m ms]; [reflexivity|].
  destruct Hf as [Hf|Hf]; [discriminate|].
  rewrite Hf. reflexivity.
Qed.

End Pipeline.

(** The two scenarios of the mocked search: scores 0.6, 0.5, 0.4 generate
    with a total score of 50; scores 0.2, 0.15, 0.1 fall back with 15. *)
Example high_scores_generate :
  ConfidenceGate.score high_matches == 50
  /\ generation_calls (fst (mock_handle high_matches)) = 1%nat
  /\ snd (mock_handle high_matches)
     = inr {| answer := "Clean the drain pump filter.";
              total_score := ConfidenceGate.score high_matches |}.
Proof. repeat split. Qed.

Example low_scores_fall_back :
  ConfidenceGate.score low_matches == 15
  /\ generation_calls (fst (mock_handle low_matches)) = 0%nat
  /\ snd (mock_handle low_matches)
     = inr {| answer := FALLBACK_TEXT;
              total_score := ConfidenceGate.score low_matches |}.
Proof. repeat split. Qed.

Example blank_query_is_invalid :
  handle mock_embed (mock_search high_matches) mock_generate mock_prompt
         default_config "   "
  = ([], inl InvalidInputError).
Proof. reflexivity. Qed.

Lemma mock_served (ms : SearchResultSet) :
  served mock_embed (mock_search ms) default_config washing_query tt ms.
Proof. repeat split. vm_compute. discriminate. Qed.

Lemma generation_iff_score_reaches_threshold_witness :
  threshold_matches <> []
  /\ ConfidenceGate.score threshold_matches == 25
  /\ generation_calls (fst (mock_handle threshold_matches)) = 1%nat.
Proof.
  assert (Hne : threshold_matches <> []) by discriminate.
  split; [exact Hne|]. split; [reflexivity|].
  destruct (@generation_iff_score_reaches_threshold
              unit mock_embed (mock_search threshold_matches) mock_generate
              mock_prompt default_config washing_query tt threshold_matches
              (mock_served threshold_matches) Hne) as [_ [_ [_ [_ H]]]].
  apply H. reflexivity.
Defined.

Lemma empty_result_set_falls_back_witness :
  strip washing_query <> EmptyString
  /\ mock_handle []
     = ([CallEmbed washing_query; CallSearch tt 3],
        inr {| answer := FALLBACK_TEXT; total_score := 0 |}).
Proof.
  split; [vm_compute; discriminate|].
  destruct (@empty_result_set_falls_back
              unit mock_embed (mock_search []) mock_generate mock_prompt
              default_config washing_query tt (mock_served []))
    as [_ [_ [_ [_ [H _]]]]].
  exact H.
Defined.

Lemma fallback_reports_computed_score_witness :
  ConfidenceGate.passes (ConfidenceGate.score low_matches)
                        (score_threshold_percent default_config) = false
  /\ ConfidenceGate.score low_matches == 15
  /\ snd (mock_handle low_matches)
     = inr {| answer := FALLBACK_TEXT;
              total_score := ConfidenceGate.score low_matches |}.
Proof.
  split; [reflexivity|]. split; [reflexivity|].
  unfold mock_handle.
  rewrite (@fallback_reports_computed_score
             unit mock_embed (mock_search low_matches) mock_generate mock_prompt
             default_config washing_query tt low_matches
             (mock_served low_matches) (or_intror eq_refl)).
  reflexivity.
Defined.

End BackendFacts.

(* ===================================================================== *)
(** ** More about [trim] *)
(* ===================================================================== *)

Module TrimFacts.
Import JS JSFacts.

Lemma trimStart_app_blank (pre t : jsstring) :
  forallb is_whitespace pre = true -> trimStart (pre ++ t) = trimStart t.
Proof.
  induction pre as [|c pre IH]; simpl; [reflexivity|].
  intros H. apply andb_true_iff in H as [Hc Hp]. rewrite Hc. auto.
Qed.

Lemma forallb_rev {A : Type} (f : A -> bool) (l : list A) :
  forallb f l = true -> forallb f (rev l) = true.
Proof.
  rewrite !forallb_forall. intros H x Hx. apply H. now apply in_rev.
Qed.

Lemma trimEnd_app_blank (t post : jsstring) :
  forallb is_whitespace post = true -> trimEnd (t ++ post) = trimEnd t.
Proof.
  intros H. unfold trimEnd. rewrite rev_app_distr.
  rewrite trimStart_app_blank; [reflexivity | now apply forallb_rev].
Qed.

Lemma trimEnd_fixed (s : jsstring) :
  (forall c r, s = r ++ [c] -> is_whitespace c = false) -> trimEnd s = s.
Proof.
  intros H. destruct s as [|a s]; [reflexivity|].
  destruct (@exists_last _ (a :: s)) as [r [c E]]; [discriminate|].
  rewrite E. unfold trimEnd. rewrite rev_app_distr. simpl.
  rewrite (H c r E). simpl. now rewrite rev_involutive.
Qed.

(** A string that neither starts nor ends with whitespace is its own
    trimmed form. *)
Lemma trim_fixed (s : jsstring) :
  (forall c r, s = c :: r -> is_whitespace c = false) ->
  (forall c r, s = r ++ [c] -> is_whitespace c = false) ->
  trim s = s.
Proof.
  intros Hf Hl. unfold trim.
  destruct s as [|a s]; [reflexivity|].
  simpl. rewrite (Hf a s eq_refl). now apply trimEnd_fixed.
Qed.

Lemma trim_idem (s : jsstring) : trim (trim s) = trim s.
Proof.
  apply trim_fixed.
  - intros c r. apply trim_first.
  - intros c r. apply trim_last.
Qed.

(** [trim] is determined by its description: whatever middle part is left
    between a blank prefix and a blank suffix, and has no blank at either
    end, is the trimmed form. *)
Lemma trim_unique (s pre m post : jsstring) :
  s = pre ++ m ++ post ->
  forallb is_whitespace pre = true ->
  forallb is_whitespace post = true ->
  (forall c r, m = c :: r -> is_whitespace c = false) ->
  (forall c r, m = r ++ [c] -> is_whitespace c = false) ->
  trim s = m.
Proof.
  intros -> Hpre Hpost Hf Hl. unfold trim.
  rewrite trimStart_app_blank by exact Hpre.
  destruct m as [|a m].
  - simpl. apply trimStart_nil_iff in Hpost. rewrite Hpost. reflexivity.
  - simpl. rewrite (Hf a m eq_refl).
    change (a :: m ++ post) with ((a :: m) ++ post).
    rewrite trimEnd_app_blank by exact Hpost.
    now apply trimEnd_fixed.
Qed.

End TrimFacts.

(* ===================================================================== *)
(** ** More about the search page *)
(* ===================================================================== *)

Module PageBehaviour.
Import JS JSFacts TrimFacts Page PageScenarios PageEdgeCases PageFacts.

#[local] Arguments lit : simpl never.
#[local] Arguments endpoint : simpl never.
#[local] Arguments request_body : simpl never.
#[local] Arguments response_data_field : simpl never.
#[local] Arguments error_message : simpl never.

Lemma setQuery_same (st : State) : setQuery (query st) st = st.
Proof. destruct st; reflexivity. Qed.

Lemma request_body_trim (q q' : jsstring) :
  trim q = trim q' -> request_body q = request_body q'.
Proof. unfold request_body. now intros ->. Qed.

(** The submission of a non-blank query is a function of its trimmed form
    and of what the network answers: the other cells of the state it starts
    from do not show in the trace or in the state it ends in. *)
Lemma submit_depends_on_trim net st1 st2 :
  trim (query st1) = trim (query st2) ->
  trim (query st1) <> [] ->
  fst (submit net st1) = fst (submit net st2)
  /\ snd (submit net st1) = setQuery (query st1) (snd (submit net st2)).
Proof.
  intros E Hq1.
  assert (Hq2 : trim (query st2) <> []) by now rewrite <- E.
  pose proof (request_body_trim _ _ E) as Hb.
  destruct (net endpoint (request_body (query st1))) as [resp|err] eqn:Hn1.
  - pose proof Hn1 as Hn2. rewrite Hb in Hn2.
    destruct (response_data_field resp (lit "answer")) as [a|] eqn:Ha.
    + destruct (@response_data_field_total resp (lit "answer")
                  (lit "total_score") a Ha) as [t Ht].
      rewrite (submit_fulfilled net st1 Hq1 Hn1 Ha Ht).
      rewrite (submit_fulfilled net st2 Hq2 Hn2 Ha Ht).
      unfold the_request. rewrite Hb. split; reflexivity.
    + rewrite (submit_fulfilled_throws net st1 Hq1 Hn1 Ha).
      rewrite (submit_fulfilled_throws net st2 Hq2 Hn2 Ha).
      unfold the_request. rewrite Hb. split; reflexivity.
  - pose proof Hn1 as Hn2. rewrite Hb in Hn2.
    rewrite (submit_rejected net st1 Hq1 Hn1).
    rewrite (submit_rejected net st2 Hq2 Hn2).
    unfold the_request. rewrite Hb. split; reflexivity.
Qed.

Lemma query_preserved net st : query (state_after net st) = query st.
Proof.
  destruct (list_eq_dec N.eq_dec (trim (query st)) []) as [E|Hq].
  - unfold state_after. now rewrite (submit_blank net st E).
  - unfold state_after.
    destruct (submit_depends_on_trim net st st eq_refl Hq) as [_ H].
    rewrite H. reflexivity.
Qed.

Lemma posts_of_nonblank net st :
  trim (query st) <> [] ->
  filter is_post (trace_of net st) = [the_request st].
Proof.
  intros Hq. destruct (submit_shape net st Hq) as [mid [T [Hmid _]]].
  rewrite T. simpl. rewrite filter_app. simpl. rewrite app_nil_r.
  replace (filter is_post mid) with (@nil Event); [reflexivity|].
  clear T. induction mid as [|ev mid IH]; [reflexivity|].
  simpl in *. apply andb_true_iff in Hmid as [H1 H2].
  destruct (is_post ev); [discriminate | auto].
Qed.

(** X1. Trimming is idempotent, so a query that is resubmitted in its
    trimmed form is posted with the same body. *)
Theorem trimmed_query_posts_same_body (q : jsstring) :
  trim (trim q) = trim q /\ request_body (trim q) = request_body q.
Proof.
  split; [apply trim_idem|]. apply request_body_trim, trim_idem.
Qed.

(** X2. If the input is a blank prefix, a middle part with no blank at
    either end, and a blank suffix, the body posted carries exactly that
    middle part: blanks inside the question are kept. *)
Theorem posted_body_is_the_middle_part (q pre m post : jsstring) :
  q = pre ++ m ++ post ->
  forallb is_whitespace pre = true ->
  forallb is_whitespace post = true ->
  (forall c r, m = c :: r -> is_whitespace c = false) ->
  (forall c r, m = r ++ [c] -> is_whitespace c = false) ->
  trim q = m /\ request_body q = JObj [(lit "query", JStr m)].
Proof.
  intros E Hpre Hpost Hf Hl.
  pose proof (@trim_unique q pre m post E Hpre Hpost Hf Hl) as T.
  split; [exact T|]. unfold request_body. now rewrite T.
Qed.

Lemma posted_body_is_the_middle_part_witness :
  request_body (lit "  iron burns cloth ")
  = JObj [(lit "query", JStr (lit "iron burns cloth"))].
Proof.
  refine (proj2 (@posted_body_is_the_middle_part
                   (lit "  iron burns cloth ") (lit "  ")
                   (lit "iron burns cloth") (lit " ")
                   eq_refl eq_refl eq_refl _ _)).
  - intros c r E. injection E as <- _. reflexivity.
  - intros c r E.
    assert (L : last (lit "iron burns cloth") 0%N = last (r ++ [c]) 0%N)
      by now rewrite E.
    rewrite last_snoc in L. subst c. reflexivity.
Defined.

(** X3. Two inputs with the same trimmed form lead to the same effects,
    request included; when that form is not empty they also leave the same
    answer, score, error and loading flag. *)
Theorem surrounding_blanks_are_irrelevant (net : Network) (st1 st2 : State) :
  trim (query st1) = trim (query st2) ->
  trace_of net st1 = trace_of net st2
  /\ (trim (query st1) <> [] ->
      answer (state_after net st1) = answer (state_after net st2)
      /\ totalScore (state_after net st1) = totalScore (state_after net st2)
      /\ error (state_after net st1) = error (state_after net st2)
      /\ loading (state_after net st1) = loading (state_after net st2)).
Proof.
  intros E. split.
  - destruct (list_eq_dec N.eq_dec (trim (query st1)) []) as [E1|Hq].
    + unfold trace_of. rewrite (submit_blank net st1 E1).
      rewrite E in E1. now rewrite (submit_blank net st2 E1).
    + unfold trace_of. apply (submit_depends_on_trim net st1 st2 E Hq).
  - intros Hq. unfold state_after.
    destruct (submit_depends_on_trim net st1 st2 E Hq) as [_ H].
    rewrite H. repeat split.
Qed.

Lemma surrounding_blanks_are_irrelevant_witness :
  trim (query typed_state) = trim (query tidy_state)
  /\ trace_of net_ok typed_state = trace_of net_ok tidy_state.
Proof.
  split; [reflexivity|].
  apply (surrounding_blanks_are_irrelevant net_ok typed_state tidy_state).
  reflexivity.
Defined.

(** X4. Submitting again, with the network answering as before, changes
    nothing: the state reached by one submission is a fixed point of the
    submission, and the text of the input box is never altered. *)
Theorem resubmission_is_idempotent (net : Network) (st : State) :
  state_after net (state_after net st) = state_after net st
  /\ trace_of net (state_after net st) = trace_of net st
  /\ query (state_after net st) = query st.
Proof.
  pose proof (query_preserved net st) as Q.
  destruct (list_eq_dec N.eq_dec (trim (query st)) []) as [E|Hq].
  - assert (S : state_after net st = st)
      by (unfold state_after; now rewrite (submit_blank net st E)).
    rewrite !S. auto.
  - assert (E : trim (query (state_after net st)) = trim (query st))
      by now rewrite Q.
    assert (Hq' : trim (query (state_after net st)) <> []) by now rewrite E.
    destruct (submit_depends_on_trim net (state_after net st) st E Hq') as [T S].
    repeat split; auto.
    unfold state_after at 1. rewrite S, Q.
    change (snd (submit net st)) with (state_after net st).
    rewrite <- Q at 1. apply setQuery_same.
Qed.

(** X5. The submit button and the handler agree: in a rendered state, an
    enabled button means that submitting issues exactly one request, and a
    button disabled although nothing is loading means that submitting issues
    none and changes nothing. *)
Theorem button_agrees_with_handler (net : Network) (st : State) (v : View) :
  render st = Some v ->
  (button_disabled v = false ->
     loading st = false
     /\ filter is_post (trace_of net st) = [the_request st])
  /\ (button_disabled v = true -> loading st = false ->
     trace_of net st = [EPreventDefault] /\ state_after net st = st).
Proof.
  intros R. destruct (render_controls _ R) as [_ [_ [B _]]]. rewrite B.
  split.
  - intros H. apply orb_false_iff in H as [L T]. split; [exact L|].
    apply posts_of_nonblank. intros E. rewrite E in T. discriminate.
  - intros H L. rewrite L in H. simpl in H.
    assert (E : trim (query st) = []).
    { destruct (trim (query st)); [reflexivity | discriminate]. }
    unfold trace_of, state_after. rewrite (submit_blank net st E). auto.
Qed.

Lemma button_agrees_with_handler_witness :
  render typed_state <> None
  /\ filter is_post (trace_of net_ok typed_state) = [the_request typed_state]
  /\ trace_of net_ok blank_state = [EPreventDefault].
Proof.
  split; [discriminate|]. split.
  - destruct (@button_agrees_with_handler net_ok typed_state _ eq_refl) as [H _].
    destruct (H eq_refl) as [_ P]. exact P.
  - destruct (@button_agrees_with_handler net_ok blank_state _ eq_refl) as [_ H].
    destruct (H eq_refl eq_refl) as [T _]. exact T.
Defined.

(** X6. Whatever the query and the network, the handler first prevents the
    default submission of the form, and issues at most one request. *)
Theorem default_prevented_and_at_most_one_request (net : Network) (st : State) :
  (exists rest, trace_of net st = EPreventDefault :: rest)
  /\ (List.length (filter is_post (trace_of net st)) <= 1)%nat.
Proof.
  destruct (list_eq_dec N.eq_dec (trim (query st)) []) as [E|Hq].
  - unfold trace_of. rewrite (submit_blank net st E). simpl. eauto.
  - rewrite (posts_of_nonblank net st Hq).
    destruct (submit_shape net st Hq) as [mid [T _]]. rewrite T.
    simpl. eauto.
Qed.

(** X7. Whenever a submission ends with an error set, the error is truthy
    and no answer is stored. If React accepts the error as a child (any
    value but a plain object or an array holding one), the page renders the
    error block with it, no answer block, and the controls enabled again
    with the label 'Search'; otherwise, as for the array of objects of a 422
    [detail], rendering throws. *)
Theorem error_state_renders_error_block (net : Network) (st : State) :
  trim (query st) <> [] ->
  error (state_after net st) <> JNull ->
  truthy (error (state_after net st)) = true
  /\ answer (state_after net st) = JNull
  /\ render (state_after net st)
     = (if renderable (error (state_after net st))
        then Some {| input_value := query st;
                     input_disabled := false;
                     button_disabled := false;
                     button_label := lit "Search";
                     error_child := ErrorMessage (error (state_after net st));
                     results_child := Nothing |}
        else None).
Proof.
  intros Hq He.
  destruct (submit_shape net st Hq) as [mid [_ [_ [L X]]]].
  destruct X as [E | [A [S T]]]; [contradiction|].
  split; [exact T|]. split; [exact A|].
  pose proof (query_preserved net st) as Q.
  unfold render, results_slot, error_slot. rewrite A, T, L, Q. simpl.
  destruct (renderable (error (state_after net st))); [|reflexivity].
  destruct (trim (query st)); [congruence | reflexivity].
Qed.

Lemma error_state_renders_error_block_witness :
  trim (query typed_state) <> []
  /\ error (state_after net_down typed_state) <> JNull
  /\ (exists v, render (state_after net_down typed_state) = Some v
                /\ error_child v
                   = ErrorMessage (JStr (lit "An error occurred while searching")))
  /\ error (state_after net_422 typed_state) <> JNull
  /\ render (state_after net_422 typed_state) = None.
Proof.
  assert (He : error (state_after net_down typed_state) <> JNull)
    by (vm_compute; discriminate).
  assert (He' : error (state_after net_422 typed_state) <> JNull)
    by (vm_compute; discriminate).
  split; [exact typed_state_not_blank|]. split; [exact He|]. split; [|split].
  - destruct (error_state_renders_error_block net_down typed_state
                typed_state_not_blank He) as [_ [_ R]].
    eexists. split; [exact R | reflexivity].
  - exact He'.
  - destruct (error_state_renders_error_block net_422 typed_state
                typed_state_not_blank He') as [_ [_ R]].
    exact R.
Defined.

(** X8. For an axios error the optional chain never throws: without a
    response, without a body, with a body that is not an object, or with an
    object that has no [detail], the message is 'An error occurred while
    searching'. *)
Theorem missing_detail_gives_generic_message
    (net : Network) (st : State) (err : JsError) :
  trim (query st) <> [] ->
  net endpoint (request_body (query st)) = Rejected err ->
  isAxiosError err = true ->
  nullish (response err) = true
  \/ nullish (opt_chain (response err) (lit "data")) = true
  \/ (exists fields, opt_chain (response err) (lit "data") = JObj fields
                     /\ lookup (lit "detail") fields = JUndefined)
  \/ (forall fields, opt_chain (response err) (lit "data") <> JObj fields) ->
  error (state_after net st) = JStr (lit "An error occurred while searching").
Proof.
  intros Hq Hn Hax Habs. unfold state_after.
  rewrite (submit_rejected net st Hq Hn). rewrite Hax. simpl.
  unfold error_message, js_or.
  assert (D : opt_chain (opt_chain (response err) (lit "data")) (lit "detail")
              = JUndefined).
  { destruct Habs as [H | [H | [[fields [H1 H2]] | H]]].
    - destruct (response err); try discriminate; reflexivity.
    - destruct (opt_chain (response err) (lit "data"));
        try discriminate; reflexivity.
    - rewrite H1. exact H2.
    - destruct (opt_chain (response err) (lit "data")) eqn:E;
        try reflexivity.
      exfalso. exact (H _ eq_refl). }
  rewrite D. reflexivity.
Qed.

Lemma missing_detail_gives_generic_message_witness :
  trim (query typed_state) <> []
  /\ error (state_after net_down typed_state)
     = JStr (lit "An error occurred while searching")
  /\ error (state_after net_500_text typed_state)
     = JStr (lit "An error occurred while searching").
Proof.
  split; [exact typed_state_not_blank|]. split.
  - apply (@missing_detail_gives_generic_message net_down typed_state
             {| isAxiosError := true; response := JUndefined |}
             typed_state_not_blank eq_refl eq_refl).
    left. reflexivity.
  - apply (@missing_detail_gives_generic_message net_500_text typed_state
             {| isAxiosError := true;
                response := http_response 500 (JStr (lit "Internal Server Error")) |}
             typed_state_not_blank eq_refl eq_refl).
    do 3 right. intros fields. discriminate.
Defined.

Lemma state_after_object net st resp fields :
  trim (query st) <> [] ->
  net endpoint (request_body (query st)) = Fulfilled resp ->
  get_prop resp (lit "data") = Some (JObj fields) ->
  state_after net st
  = {| query := query st;
       answer := lookup (lit "answer") fields;
       totalScore := lookup (lit "total_score") fields;
       loading := false; error := JNull |}.
Proof.
  intros Hq Hn Hd. unfold state_after.
  now rewrite (submit_fulfilled net st Hq Hn
                 (response_data_field_object resp (lit "answer") Hd)
                 (response_data_field_object resp (lit "total_score") Hd)).
Qed.

(** X9. After a fulfilled request whose body is an object with a truthy
    [answer] that React accepts as a child (a string, a number, [true], an
    array of such), the page shows the answer block and no error: with the
    score badge when [total_score] is a number, without it when [total_score]
    is [null]. *)
Theorem answer_block_shows_answer_and_score
    (net : Network) (st : State) resp fields :
  trim (query st) <> [] ->
  net endpoint (request_body (query st)) = Fulfilled resp ->
  get_prop resp (lit "data") = Some (JObj fields) ->
  truthy (lookup (lit "answer") fields) = true ->
  renderable (lookup (lit "answer") fields) = true ->
  (forall q, lookup (lit "total_score") fields = JNum q ->
     render (state_after net st)
     = Some {| input_value := query st; input_disabled := false;
               button_disabled := false; button_label := lit "Search";
               error_child := Nothing;
               results_child := Results (Some q) (lookup (lit "answer") fields) |})
  /\ (lookup (lit "total_score") fields = JNull ->
     render (state_after net st)
     = Some {| input_value := query st; input_disabled := false;
               button_disabled := false; button_label := lit "Search";
               error_child := Nothing;
               results_child := Results None (lookup (lit "answer") fields) |}).
Proof.
  intros Hq Hn Hd Ha Hr. rewrite (state_after_object net st Hq Hn Hd).
  split.
  - intros q Ht. unfold render, results_slot, score_badge, error_slot. simpl.
    rewrite Ha, Hr, Ht. simpl.
    destruct (trim (query st)); [congruence | reflexivity].
  - intros Ht. unfold render, results_slot, score_badge, error_slot. simpl.
    rewrite Ha, Hr, Ht. simpl.
    destruct (trim (query st)); [congruence | reflexivity].
Qed.

Lemma answer_block_shows_answer_and_score_witness :
  trim (query typed_state) <> []
  /\ (exists v, render (state_after (net_score (JNum (533 # 10))) typed_state) = Some v
                /\ results_child v
                   = Results (Some (533 # 10)) (JStr (lit "Unplug the iron.")))
  /\ (exists v, render (state_after (net_score JNull) typed_state) = Some v
                /\ results_child v = Results None (JStr (lit "Unplug the iron."))).
Proof.
  split; [exact typed_state_not_blank|]. split.
  - destruct (@answer_block_shows_answer_and_score
                (net_score (JNum (533 # 10))) typed_state _ _
                typed_state_not_blank eq_refl eq_refl eq_refl eq_refl) as [H _].
    eexists. split; [exact (H _ eq_refl) | reflexivity].
  - destruct (@answer_block_shows_answer_and_score
                (net_score JNull) typed_state _ _
                typed_state_not_blank eq_refl eq_refl eq_refl eq_refl) as [_ H].
    eexists. split; [exact (H eq_refl) | reflexivity].
Defined.

(** X10. After a fulfilled request whose body is an object, rendering
    throws exactly when [answer] is truthy and either [total_score] is
    neither [null] nor a number (a missing field included), so that
    [toFixed] is called on a value that has no such method, or [answer] is
    a value React rejects as a child (a plain object, or an array holding
    one). *)
Theorem render_throws_iff_score_unusable
    (net : Network) (st : State) resp fields :
  trim (query st) <> [] ->
  net endpoint (request_body (query st)) = Fulfilled resp ->
  get_prop resp (lit "data") = Some (JObj fields) ->
  render (state_after net st) = None
  <-> (truthy (lookup (lit "answer") fields) = true
       /\ ((lookup (lit "total_score") fields <> JNull
            /\ forall q, lookup (lit "total_score") fields <> JNum q)
           \/ renderable (lookup (lit "answer") fields) = false)).
Proof.
  intros Hq Hn Hd. rewrite (state_after_object net st Hq Hn Hd).
  unfold render, results_slot, score_badge, error_slot. simpl.
  destruct (truthy (lookup (lit "answer") fields)).
  - destruct (renderable (lookup (lit "answer") fields)).
    + destruct (lookup (lit "total_score") fields); simpl; split;
        try discriminate;
        try (intros _; split; [reflexivity|]; left; split; discriminate);
        try reflexivity.
      * intros [_ [[H _] | H]]; [congruence | discriminate].
      * intros [_ [[_ H] | H]]; [exfalso; exact (H _ eq_refl) | discriminate].
    + split; [intros _; auto|].
      intros _. destruct (lookup (lit "total_score") fields); reflexivity.
  - split; [|intros [H _]; discriminate].
    destruct (lookup (lit "answer") fields) eqn:E; simpl; discriminate.
Qed.

Lemma render_throws_iff_score_unusable_witness :
  trim (query typed_state) <> []
  /\ render (state_after net_no_score typed_state) = None
  /\ render (state_after (net_score (JStr (lit "53.3"))) typed_state) = None
  /\ render (state_after net_object_answer typed_state) = None.
Proof.
  split; [exact typed_state_not_blank|]. split; [|split].
  - apply (@render_throws_iff_score_unusable net_no_score typed_state _ _
             typed_state_not_blank eq_refl eq_refl).
    split; [reflexivity|]. left. split; discriminate.
  - apply (@render_throws_iff_score_unusable
             (net_score (JStr (lit "53.3"))) typed_state _ _
             typed_state_not_blank eq_refl eq_refl).
    split; [reflexivity|]. left. split; discriminate.
  - apply (@render_throws_iff_score_unusable net_object_answer typed_state _ _
             typed_state_not_blank eq_refl eq_refl).
    split; [reflexivity|]. right. reflexivity.
Defined.

(** X11. While the request of a non-blank query is pending, that is in the
    state left by the effects that precede it, the page shows the input and
    the button disabled, the label 'Searching...', and neither an error nor
    an answer, whatever it showed before. *)
Theorem pending_request_view (net : Network) (st : State) :
  trim (query st) <> [] ->
  (exists rest, trace_of net st = prologue ++ the_request st :: rest)
  /\ render (replay prologue st)
     = Some {| input_value := query st; input_disabled := true;
               button_disabled := true; button_label := lit "Searching...";
               error_child := Nothing; results_child := Nothing |}.
Proof.
  intros Hq. split.
  - destruct (submit_shape net st Hq) as [mid [T _]]. eauto.
  - reflexivity.
Qed.

Lemma pending_request_view_witness :
  trim (query stale_state) <> []
  /\ render (replay prologue stale_state)
     = Some {| input_value := lit "toaster not heating"; input_disabled := true;
               button_disabled := true; button_label := lit "Searching...";
               error_child := Nothing; results_child := Nothing |}.
Proof.
  assert (Hq : trim (query stale_state) <> []) by (vm_compute; discriminate).
  split; [exact Hq|].
  apply (pending_request_view net_down stale_state Hq).
Defined.

(** X12. Once the request of a non-blank query has settled, every render
    of the final state has the input and the button enabled, the label
    'Search', and the text of the query still in the input. *)
Theorem controls_enabled_after_settle (net : Network) (st : State) (v : View) :
  trim (query st) <> [] ->
  render (state_after net st) = Some v ->
  input_value v = query st
  /\ input_disabled v = false
  /\ button_disabled v = false
  /\ button_label v = lit "Search".
Proof.
  intros Hq R.
  destruct (submit_shape net st Hq) as [mid [_ [_ [L _]]]].
  pose proof (query_preserved net st) as Q.
  destruct (render_controls _ R) as [V [I [B Lb]]].
  rewrite L in I, B, Lb. rewrite Q in V, B. simpl in B.
  repeat split; auto.
  rewrite B. destruct (trim (query st)); [congruence | reflexivity].
Qed.

Lemma controls_enabled_after_settle_witness :
  trim (query typed_state) <> []
  /\ (exists v, render (state_after net_ok typed_state) = Some v
                /\ button_disabled v = false /\ button_label v = lit "Search").
Proof.
  split; [exact typed_state_not_blank|].
  eexists. split; [reflexivity|].
  destruct (@controls_enabled_after_settle net_ok typed_state _
              typed_state_not_blank eq_refl) as [_ [_ [B Lb]]].
  split; [exact B | exact Lb].
Defined.

(** X13. In every state the page can be brought to by typing and
    submitting, nothing is loading, and the error is either [null] or a
    truthy value accompanied by no answer and no score; so every render has
    the input enabled and shows an error block or an answer block, never
    both, and never a stray falsy error value. *)
Theorem settled_states_invariant (st : State) :
  Reachable st ->
  loading st = false
  /\ (error st = JNull
      \/ (truthy (error st) = true /\ answer st = JNull /\ totalScore st = JNull))
  /\ (forall v, render st = Some v ->
        input_disabled v = false
        /\ (error_child v = Nothing
            \/ (error_child v = ErrorMessage (error st)
                /\ results_child v = Nothing))).
Proof.
  intros R.
  assert (Inv : loading st = false
                /\ (error st = JNull
                    \/ (truthy (error st) = true /\ answer st = JNull
                        /\ totalScore st = JNull))).
  { induction R as [|v st R IH|net st R IH].
    - simpl. auto.
    - exact IH.
    - destruct (list_eq_dec N.eq_dec (trim (query st)) []) as [E|Hq].
      + unfold state_after. now rewrite (submit_blank net st E).
      + destruct (submit_shape net st Hq) as [mid [_ [_ [L X]]]].
        split; [exact L|]. destruct X as [E | [A [S T]]]; auto. }
  destruct Inv as [L X]. repeat split; auto.
  - destruct (render_controls _ H) as [_ [I _]]. now rewrite I.
  - unfold render in H.
    destruct (results_slot st) as [r|] eqn:Hr; [|discriminate].
    destruct (error_slot st) as [e|] eqn:He; [|discriminate].
    injection H as <-. simpl.
    destruct X as [E | [T [A S]]].
    + left. unfold error_slot in He. rewrite E in He. simpl in He. congruence.
    + right. unfold error_slot in He. rewrite T in He.
      destruct (renderable (error st)); [|discriminate].
      split; [congruence|].
      unfold results_slot in Hr. rewrite A in Hr. simpl in Hr. congruence.
Qed.

Lemma settled_states_invariant_witness :
  Reachable (state_after net_ok (onChange (lit "fridge is loud")
                                   (state_after net_down typed_state)))
  /\ loading (state_after net_ok (onChange (lit "fridge is loud")
                                    (state_after net_down typed_state))) = false.
Proof.
  assert (R : Reachable (state_after net_ok (onChange (lit "fridge is loud")
                                   (state_after net_down typed_state)))).
  { apply reach_submit, reach_typing, reach_submit.
    unfold typed_state. apply reach_typing, reach_initial. }
  split; [exact R|].
  apply (settled_states_invariant R).
Defined.

End PageBehaviour.
